(** * rag_pipeline.py: SimpleRAGPipeline

    A shallow embedding of [src/rag_pipeline.py] and the properties of its
    decision-and-assembly pipeline.

    Conventions.
    - A Python [str] is a Rocq [string]; a character is a code point below
      256, so [String.length] is Python's [len].  [isspace] and [lower_char]
      are Python's [str.isspace] and [str.lower] on that range.
    - A Python [dict] is a [gmap] with string keys.
    - The retriever, the Wikipedia library and the language model are the
      collaborators of the class: they are the variables of the section
      [Pipeline], they act on a world [W] and may raise, the constructors
      of the Wikipedia tool included. *)

From Stdlib Require Import String Ascii List Bool Arith Lia DecimalString.
From stdpp Require Import gmap strings list fin_maps.
Import ListNotations.
Open Scope string_scope.

(** ** Python strings *)

(** [needle in hay] *)
Fixpoint isin (needle hay : string) : bool :=
  String.prefix needle hay
  || match hay with
     | EmptyString => false
     | String _ hay' => isin needle hay'
     end.

(** [str.isspace] on one character: U+0009..U+000D, U+001C..U+0020,
    U+0085 and U+00A0. *)
Definition isspace (c : ascii) : bool :=
  let n := nat_of_ascii c in
  (((9 <=? n) && (n <=? 13)) || ((28 <=? n) && (n <=? 32))
   || (n =? 133) || (n =? 160))%nat.

Fixpoint lstrip (s : string) : string :=
  match s with
  | EmptyString => EmptyString
  | String c s' => if isspace c then lstrip s' else s
  end.

Fixpoint rstrip (s : string) : string :=
  match s with
  | EmptyString => EmptyString
  | String c s' =>
      match rstrip s' with
      | EmptyString => if isspace c then EmptyString else String c EmptyString
      | r => String c r
      end
  end.

(** [s.strip()] *)
Definition strip (s : string) : string := rstrip (lstrip s).

(** [str.lower] on one character: A..Z, and U+00C0..U+00DE but U+00D7. *)
Definition lower_char (c : ascii) : ascii :=
  let n := nat_of_ascii c in
  if (((65 <=? n) && (n <=? 90))
      || ((192 <=? n) && (n <=? 222) && negb (n =? 215)))%nat
  then ascii_of_nat (n + 32) else c.

Fixpoint lower (s : string) : string :=
  match s with
  | EmptyString => EmptyString
  | String c s' => String (lower_char c) (lower s')
  end.

(** [str(n)] for a non-negative integer *)
Definition str_of_nat (n : nat) : string :=
  NilZero.string_of_uint (Nat.to_uint n).

(** [sep.join(parts)] *)
Definition join (sep : string) (parts : list string) : string :=
  String.concat sep parts.

(** [bool(s)] for a string *)
Definition nonempty (s : string) : bool :=
  match s with EmptyString => false | _ => true end.

(** ** Python values read dynamically *)

(** What [meta.get(key)] or [getattr(response, "content", None)] yields:
    [None], a string, or any other object, of which the code uses the
    truth value and the text only. *)
Inductive pyval : Type :=
  | PNone
  | PStr (s : string)
  | PObj (truth : bool) (text : string).

(** [bool(v)] *)
Definition truthy (v : pyval) : bool :=
  match v with
  | PNone => false
  | PStr s => nonempty s
  | PObj truth _ => truth
  end.

(** [a or b] *)
Definition py_or (a b : pyval) : pyval := if truthy a then a else b.

(** The text of a value inside an f-string. *)
Definition py_format (v : pyval) : string :=
  match v with
  | PNone => "None"
  | PStr s => s
  | PObj _ text => text
  end.

(** [langchain.schema.Document]: [metadata = None] stands for an object
    without a [metadata] attribute. *)
Record Document : Type := mkDocument {
  page_content : string;
  metadata : option (gmap string pyval)
}.

(** [dict.get(key)] *)
Definition dict_get (m : gmap string pyval) (key : string) : pyval :=
  default PNone (m !! key).

(** ** _get_retriever_results, lines 24-32 *)

Definition NO_DOCUMENTS_FOUND : string := "No documents found.".

(** line 29 *)
Definition meta_of (d : Document) : gmap string pyval :=
  default ∅ (metadata d).

(** line 30 *)
Definition title_of (i : nat) (d : Document) : pyval :=
  py_or (py_or (dict_get (meta_of d) "title") (dict_get (meta_of d) "source"))
        (PStr ("doc_" ++ str_of_nat i)).

Definition newline : string := String (ascii_of_nat 10) EmptyString.

(** line 31 *)
Definition render (i : nat) (d : Document) : string :=
  "[" ++ str_of_nat i ++ "] " ++ py_format (title_of i d) ++ newline
      ++ page_content d.

(** [enumerate(l, start)] *)
Fixpoint enumerate {A} (start : nat) (l : list A) : list (nat * A) :=
  match l with
  | [] => []
  | x :: l' => (start, x) :: enumerate (S start) l'
  end.

(** lines 27-31: the list [merged] *)
Definition merged (docs : list Document) : list string :=
  map (fun '(i, d) => render i d) (enumerate 1 (firstn 8 docs)).

(** lines 24-32, on the list the retriever returned *)
Definition format_docs (docs : list Document) : string :=
  match docs with
  | [] => NO_DOCUMENTS_FOUND
  | _ => join (newline ++ newline) (merged docs)
  end.

(** ** _should_use_wikipedia, lines 100-123 *)

Definition general_knowledge_indicators : list string :=
  ["what is"; "who is"; "define"; "explain"; "history of";
   "when was"; "where is"; "how does"; "what are"].

Definition _should_use_wikipedia (question retriever_results : string) : bool :=
  if negb (nonempty retriever_results)
     || isin "No documents found" retriever_results
  then true
  else if (String.length (strip retriever_results) <? 200)%nat
  then true
  else
    let question_lower := lower question in
    let has_general_knowledge_pattern :=
      existsb (fun indicator => isin indicator question_lower)
              general_knowledge_indicators in
    has_general_knowledge_pattern
    && (String.length (strip retriever_results) <? 500)%nat.

(** ** The pure steps of run *)

(** lines 67-71 *)
Definition needs_wikipedia (question retriever_results : string) : bool :=
  isin "No documents found" retriever_results
  || (String.length (strip retriever_results) <? 100)%nat
  || _should_use_wikipedia question retriever_results.

(** lines 61-64 *)
Definition corpus_parts (retriever_results : string) : list string :=
  if nonempty retriever_results
     && negb (isin "No documents found" retriever_results)
  then ["Document corpus results:" ++ newline ++ retriever_results]
  else [].

(** lines 75-76 *)
Definition wikipedia_parts (wikipedia_results : string) : list string :=
  if nonempty wikipedia_results
     && negb (isin "Could not retrieve" wikipedia_results)
  then ["Wikipedia results:" ++ newline ++ wikipedia_results]
  else [].

Definition NO_RELEVANT_INFORMATION : string := "No relevant information found.".

(** line 79 *)
Definition full_context (context_parts : list string) : string :=
  match context_parts with
  | [] => NO_RELEVANT_INFORMATION
  | _ => join (newline ++ newline) context_parts
  end.

(** lines 82-89 *)
Definition build_prompt (context question : string) : string :=
  "You are a helpful RAG agent. Prefer 'retriever' for user-provided docs; use 'wikipedia' for general knowledge. Return only the final useful answer."
  ++ newline ++ newline
  ++ "Available information:" ++ newline
  ++ context ++ newline ++ newline
  ++ "Question: " ++ question ++ newline ++ newline
  ++ "Provide a comprehensive answer based on the available information:".

(** The response of the model: [content = None] stands for a response
    without a [content] attribute. *)
Record Response : Type := mkResponse {
  content : option pyval
}.

Definition COULD_NOT_GENERATE : string := "Could not generate answer.".

(** line 92 *)
Definition answer_of (response : Response) : pyval :=
  py_or (default PNone (content response)) (PStr COULD_NOT_GENERATE).

(** ** Calls that may raise

    A method call acts on the world (whatever the collaborators keep or
    reach: an index, the network) and either returns or raises.  [E] is
    the type of Python exceptions of class [Exception], the ones that
    [except Exception] handles. *)

Inductive outcome (E A : Type) : Type :=
  | Returned (a : A)
  | Raised (e : E).
Arguments Returned {E A} a.
Arguments Raised {E A} e.

Definition M (W E A : Type) : Type := W -> outcome E A * W.

Definition ret {W E A} (a : A) : M W E A := fun w => (Returned a, w).

Definition bind {W E A B} (m : M W E A) (k : A -> M W E B) : M W E B :=
  fun w =>
    match m w with
    | (Returned a, w') => k a w'
    | (Raised e, w') => (Raised e, w')
    end.

(** [try: body / except Exception: handler] *)
Definition try_except {W E A} (body : M W E A) (handler : E -> M W E A)
  : M W E A :=
  fun w =>
    match body w with
    | (Returned a, w') => (Returned a, w')
    | (Raised e, w') => handler e w'
    end.

Declare Scope py_scope.
Delimit Scope py_scope with py.
Notation "x <- m ;; k" := (bind m (fun x => k))
  (at level 100, m at next level, right associativity) : py_scope.

(** The values of the dictionary that [run] returns. *)
Inductive result_val : Type :=
  | VStr (s : string)
  | VDocs (docs : list Document)
  | VAny (v : pyval).

(** lines 94-98 *)
Definition make_result (question : string) (retrieved_docs : list Document)
    (answer : pyval) : gmap string result_val :=
  <["question" := VStr question]>
    (<["retrieved_docs" := VDocs retrieved_docs]>
       (<["answer" := VAny answer]> ∅)).

Definition COULD_NOT_RETRIEVE : string :=
  "Could not retrieve Wikipedia information.".

(** What lines 3-4 import from [langchain_community]: the two classes,
    whose constructors are calls like any other and may raise, and the
    method [run] of the tool. *)
Record WikipediaLib (W E : Type) : Type := mkWikipediaLib {
  api_wrapper : Type;
  tool : Type;
  (** [WikipediaAPIWrapper(top_k_results=.., lang=..)] *)
  WikipediaAPIWrapper : nat -> string -> M W E api_wrapper;
  (** [WikipediaQueryRun(api_wrapper=..)] *)
  WikipediaQueryRun : api_wrapper -> M W E tool;
  (** [wiki.run(query)] *)
  tool_run : tool -> string -> M W E string
}.
Arguments api_wrapper {W E} _.
Arguments tool {W E} _.
Arguments WikipediaAPIWrapper {W E} _ _ _.
Arguments WikipediaQueryRun {W E} _ _.
Arguments tool_run {W E} _ _ _.

Section Pipeline.
Context {W E : Type}.

(** [self.retriever.invoke] *)
Variable retriever_invoke : string -> M W E (list Document).
(** [self.llm.invoke] *)
Variable llm_invoke : string -> M W E Response.
Variable wikipedia : WikipediaLib W E.

Local Open Scope py_scope.

(** lines 36-38: the tool is built before the [try] of line 39 *)
Definition new_wikipedia : M W E (tool wikipedia) :=
  api <- WikipediaAPIWrapper wikipedia 3 "en" ;;
  WikipediaQueryRun wikipedia api.

(** lines 21-32 *)
Definition _get_retriever_results (query : string) : M W E string :=
  docs <- retriever_invoke query ;;
  ret (format_docs docs).

(** lines 34-42 *)
Definition _get_wikipedia_results (query : string) : M W E string :=
  wiki <- new_wikipedia ;;
  try_except (tool_run wikipedia wiki query)
             (fun _ => ret COULD_NOT_RETRIEVE).

(** lines 61-76: the list [context_parts] once steps 3 and 4 are done *)
Definition gather_context (question retriever_results : string)
  : M W E (list string) :=
  let context_parts := corpus_parts retriever_results in
  if needs_wikipedia question retriever_results
  then
    wikipedia_results <- _get_wikipedia_results question ;;
    ret (context_parts ++ wikipedia_parts wikipedia_results)%list
  else ret context_parts.

(** lines 44-98 *)
Definition run (question : string) : M W E (gmap string result_val) :=
  retrieved_docs <- retriever_invoke question ;;
  retriever_results <- _get_retriever_results question ;;
  context_parts <- gather_context question retriever_results ;;
  let prompt := build_prompt (full_context context_parts) question in
  response <- llm_invoke prompt ;;
  let answer := answer_of response in
  ret (make_result question retrieved_docs answer).

(** lines 125-130 *)
Definition build : M W E unit := ret tt.

End Pipeline.

(** ** Sample collaborators and inputs

    The world of the samples is the log of the calls made so far, an
    exception is the name of its class. *)

Module Demo.

Definition world : Type := list string.
Definition exn : Type := string.

Definition logged {A} (call : string) (r : outcome exn A) : M world exn A :=
  fun w => (r, (w ++ [call])%list).

(** A retriever that always finds [docs]. *)
Definition retriever (docs : list Document) (query : string)
  : M world exn (list Document) :=
  logged "retriever.invoke" (Returned docs).

(** A retriever whose index cannot be reached. *)
Definition failing_retriever (query : string)
  : M world exn (list Document) :=
  logged "retriever.invoke" (Raised "ConnectionError").

(** A retriever that answers once and fails from the second call on. *)
Definition flaky_retriever (docs : list Document) (query : string)
  : M world exn (list Document) :=
  fun w =>
    match w with
    | [] => logged "retriever.invoke" (Returned docs) w
    | _ => logged "retriever.invoke" (Raised "ConnectionError") w
    end.

Definition llm (c : option pyval) (prompt : string) : M world exn Response :=
  logged "llm.invoke" (Returned (mkResponse c)).

Definition failing_llm (prompt : string) : M world exn Response :=
  logged "llm.invoke" (Raised "TimeoutError").

(** A Wikipedia library: [installed] tells whether the package that the
    wrapper imports is there, [answer] is the text that the tool finds,
    if any.  The tool object is its configuration. *)
Definition wikipedia_lib (installed : bool) (answer : option string)
  : WikipediaLib world exn :=
  {| api_wrapper := nat * string;
     tool := nat * string;
     WikipediaAPIWrapper top_k lang :=
       if installed
       then logged "WikipediaAPIWrapper" (Returned (top_k, lang))
       else logged "WikipediaAPIWrapper" (Raised "ImportError");
     WikipediaQueryRun api := logged "WikipediaQueryRun" (Returned api);
     tool_run wiki query :=
       match answer with
       | Some text => logged "wikipedia.run" (Returned text)
       | None => logged "wikipedia.run" (Raised "HTTPError")
       end |}.

(** A tool that finds [text]. *)
Definition wikipedia (text : string) : WikipediaLib world exn :=
  wikipedia_lib true (Some text).

(** A tool whose search fails. *)
Definition failing_wikipedia : WikipediaLib world exn :=
  wikipedia_lib true None.

(** A library whose package is not installed. *)
Definition missing_wikipedia : WikipediaLib world exn :=
  wikipedia_lib false None.

(** [n] times the letter x *)
Fixpoint filler (n : nat) : string :=
  match n with
  | 0 => EmptyString
  | S n' => String "x" (filler n')
  end.

Definition titled (title body : string) : Document :=
  mkDocument body (Some {[ "title" := PStr title ]}).

(** A long document that quotes the sentinel of line 25. *)
Definition quoting_docs : list Document :=
  [titled "Search log" ("No documents found." ++ filler 500)].

(** A document of medium length with the words of line 68, not followed
    by a full stop. *)
Definition archive_docs : list Document :=
  [titled "Archive" ("No documents found in the 1990 archive; " ++ filler 200)].

Definition medium_docs : list Document := [titled "Report" (filler 300)].
Definition long_docs : list Document := [titled "Report" (filler 600)].
Definition short_docs : list Document := [titled "Note" "tiny"].

(** Ten documents, the third with no metadata, the fourth with an
    empty title and a source. *)
Definition ten_docs : list Document :=
  [titled "A" "a"; titled "B" "b"; mkDocument "c" None;
   mkDocument "d" (Some {[ "title" := PStr ""; "source" := PStr "d.pdf" ]});
   titled "E" "e"; titled "F" "f"; titled "G" "g"; titled "H" "h";
   titled "I" "i"; titled "J" "j"].

End Demo.

(** * Properties *)

(** ** Substrings *)

Lemma prefix_app_l (p q s : string) :
  String.prefix (p ++ q) s = true -> String.prefix p s = true.
Proof.
  revert s. induction p as [|c p IH]; intros s H.
  - destruct s; reflexivity.
  - destruct s as [|c' s]; simpl in *; [discriminate|].
    destruct (Ascii.ascii_dec c c'); [apply IH; exact H | discriminate].
Qed.

Lemma isin_app_l (p q s : string) :
  isin (p ++ q) s = true -> isin p s = true.
Proof.
  induction s as [|c s IH]; cbn [isin]; intros H.
  - apply orb_true_iff in H as [H|H]; [|discriminate].
    apply prefix_app_l in H. rewrite H. reflexivity.
  - apply orb_true_iff in H as [H|H]; apply orb_true_iff.
    + left. exact (prefix_app_l _ _ _ H).
    + right. exact (IH H).
Qed.

(** The test of lines 63, 68 and 106 looks for the sentinel of line 25
    without its full stop, so any text with the sentinel passes it. *)
Lemma isin_no_documents (s : string) :
  isin NO_DOCUMENTS_FOUND s = true -> isin "No documents found" s = true.
Proof. apply (isin_app_l "No documents found" "."). Qed.

Lemma isin_could_not_retrieve (s : string) :
  isin COULD_NOT_RETRIEVE s = true -> isin "Could not retrieve" s = true.
Proof. apply (isin_app_l "Could not retrieve" " Wikipedia information."). Qed.

Lemma strip_nonempty (s : string) :
  0 < String.length (strip s) -> nonempty s = true.
Proof. destruct s; simpl; [lia | reflexivity]. Qed.

(** ** The sufficiency decision *)

Lemma needs_wikipedia_marker (q t : string) :
  isin "No documents found" t = true -> needs_wikipedia q t = true.
Proof. intros H. unfold needs_wikipedia. rewrite H. reflexivity. Qed.

Lemma needs_wikipedia_clean (q t : string) :
  isin "No documents found" t = false ->
  200 <= String.length (strip t) ->
  needs_wikipedia q t
  = existsb (fun indicator => isin indicator (lower q))
            general_knowledge_indicators
    && (String.length (strip t) <? 500)%nat.
Proof.
  intros Hm Hlen.
  unfold needs_wikipedia, _should_use_wikipedia. rewrite Hm.
  rewrite (strip_nonempty t) by lia. simpl.
  assert (H100 : (String.length (strip t) <? 100)%nat = false)
    by (apply Nat.ltb_ge; lia).
  assert (H200 : (String.length (strip t) <? 200)%nat = false)
    by (apply Nat.ltb_ge; lia).
  rewrite H100, H200. reflexivity.
Qed.

(** C3. Whatever the question, Wikipedia is needed as soon as the formatted
    text contains the words looked for on line 68, hence as soon as it
    contains the sentinel "No documents found.", and as soon as its trimmed
    length is under 200 characters. *)
Theorem needs_wikipedia_when_empty_or_short (q t : string) :
  isin "No documents found" t = true
  \/ isin NO_DOCUMENTS_FOUND t = true
  \/ String.length (strip t) < 200 ->
  needs_wikipedia q t = true.
Proof.
  intros [H | [H | H]].
  - apply needs_wikipedia_marker, H.
  - apply needs_wikipedia_marker, isin_no_documents, H.
  - unfold needs_wikipedia, _should_use_wikipedia.
    destruct (isin "No documents found" t); [reflexivity|].
    rewrite orb_false_r. simpl.
    destruct (negb (nonempty t)); [apply orb_true_r|].
    apply Nat.ltb_lt in H. rewrite H. apply orb_true_r.
Qed.

Lemma needs_wikipedia_when_empty_or_short_witness :
  needs_wikipedia "Tell me a joke" (format_docs []) = true
  /\ needs_wikipedia "Tell me a joke" (format_docs Demo.short_docs) = true.
Proof.
  split.
  - apply needs_wikipedia_when_empty_or_short. right. left. reflexivity.
  - apply needs_wikipedia_when_empty_or_short. right. right.
    vm_compute. lia.
Defined.

(** C1, as the code has it. For every question and every formatted text
    that does not contain the words "No documents found" and whose trimmed
    length is at least 500 characters, the decision is false, and the
    context is gathered without a call: the world is unchanged and the
    parts are those of the corpus alone. *)
Theorem long_clean_text_is_sufficient {W E : Type}
    (wikipedia : WikipediaLib W E) (q t : string) (w : W) :
  isin "No documents found" t = false ->
  500 <= String.length (strip t) ->
  needs_wikipedia q t = false
  /\ gather_context wikipedia q t w = (Returned (corpus_parts t), w).
Proof.
  intros Hm Hlen.
  assert (Hn : needs_wikipedia q t = false).
  { rewrite needs_wikipedia_clean by (assumption || lia).
    replace (String.length (strip t) <? 500)%nat with false
      by (symmetry; apply Nat.ltb_ge; lia).
    apply andb_false_r. }
  split; [exact Hn|].
  unfold gather_context. rewrite Hn. reflexivity.
Qed.

Lemma long_clean_text_is_sufficient_witness :
  needs_wikipedia "What is a report?" (format_docs Demo.long_docs) = false
  /\ gather_context Demo.failing_wikipedia "What is a report?"
       (format_docs Demo.long_docs) []
     = (Returned (corpus_parts (format_docs Demo.long_docs)), []).
Proof.
  apply long_clean_text_is_sufficient.
  - vm_compute. reflexivity.
  - apply Nat.leb_le. vm_compute. reflexivity.
Defined.

(** C1 fails as stated: a formatted text of 534 characters that quotes the
    sentinel makes the decision true. *)
Lemma long_text_quoting_sentinel_needs_wikipedia :
  500 <= String.length (strip (format_docs Demo.quoting_docs))
  /\ needs_wikipedia "hello" (format_docs Demo.quoting_docs) = true.
Proof.
  split.
  - apply Nat.leb_le. vm_compute. reflexivity.
  - vm_compute. reflexivity.
Qed.

(** C2, as the code has it. For every question and every formatted text
    that does not contain the words "No documents found" (the sentinel
    without its full stop) and whose trimmed length is in [200, 500), the
    decision is true exactly when the lower-cased question contains one
    of the nine patterns. *)
Theorem medium_text_decided_by_pattern (q t : string) :
  isin "No documents found" t = false ->
  200 <= String.length (strip t) ->
  String.length (strip t) < 500 ->
  needs_wikipedia q t = true
  <-> exists p,
        In p ["what is"; "who is"; "define"; "explain"; "history of";
              "when was"; "where is"; "how does"; "what are"]
        /\ isin p (lower q) = true.
Proof.
  intros Hm Hlo Hhi.
  rewrite needs_wikipedia_clean by assumption.
  apply Nat.ltb_lt in Hhi. rewrite Hhi, andb_true_r.
  apply existsb_exists.
Qed.

Lemma medium_text_decided_by_pattern_witness :
  needs_wikipedia "What IS a report?" (format_docs Demo.medium_docs) = true.
Proof.
  apply medium_text_decided_by_pattern.
  - vm_compute. reflexivity.
  - apply Nat.leb_le. vm_compute. reflexivity.
  - apply Nat.ltb_lt. vm_compute. reflexivity.
  - exists "what is". split; [left; reflexivity | vm_compute; reflexivity].
Defined.

(** C2 fails as stated: a formatted text of 252 characters with the words
    "No documents found in the 1990 archive" does not contain the sentinel
    "No documents found.", and the decision is true for a question with
    none of the nine patterns. *)
Lemma medium_text_without_sentinel_needs_wikipedia :
  isin NO_DOCUMENTS_FOUND (format_docs Demo.archive_docs) = false
  /\ 200 <= String.length (strip (format_docs Demo.archive_docs)) < 500
  /\ ~ (needs_wikipedia "hello" (format_docs Demo.archive_docs) = true
        <-> exists p,
              In p ["what is"; "who is"; "define"; "explain"; "history of";
                    "when was"; "where is"; "how does"; "what are"]
              /\ isin p (lower "hello") = true).
Proof.
  split; [|split; [split|]].
  - vm_compute. reflexivity.
  - apply Nat.leb_le. vm_compute. reflexivity.
  - apply Nat.ltb_lt. vm_compute. reflexivity.
  - intros [Hpat _].
    assert (Hn : needs_wikipedia "hello" (format_docs Demo.archive_docs) = true)
      by (vm_compute; reflexivity).
    apply Hpat in Hn.
    apply (existsb_exists (fun p => isin p (lower "hello"))) in Hn.
    vm_compute in Hn. discriminate.
Qed.

(** ** Formatting the retrieved documents *)

Lemma length_enumerate {A} (l : list A) (start : nat) :
  length (enumerate start l) = length l.
Proof.
  revert start. induction l as [|x l IH]; intros start; simpl;
    [reflexivity | rewrite IH; reflexivity].
Qed.

Lemma lookup_rendered (l : list Document) (start k : nat) :
  map (fun '(i, d) => render i d) (enumerate start l) !! k
  = render (start + k) <$> l !! k.
Proof.
  revert start k. induction l as [|x l IH]; intros start k.
  - destruct k; reflexivity.
  - destruct k as [|k]; simpl.
    + rewrite Nat.add_0_r. reflexivity.
    + rewrite IH. replace (S start + k) with (start + S k) by lia.
      reflexivity.
Qed.

Lemma length_merged (docs : list Document) :
  length (merged docs) = min 8 (length docs).
Proof.
  unfold merged. rewrite length_map, length_enumerate. apply length_take.
Qed.

Lemma lookup_merged (docs : list Document) (k : nat) :
  k < 8 -> merged docs !! k = render (S k) <$> docs !! k.
Proof.
  intros Hk. unfold merged. rewrite lookup_rendered.
  rewrite lookup_take_lt by exact Hk. reflexivity.
Qed.

Lemma merged_take (docs : list Document) : merged (take 8 docs) = merged docs.
Proof. unfold merged. rewrite take_take. reflexivity. Qed.

(** C5. A list of more than 8 documents is rendered as exactly 8 sections,
    the section at place k (from 0) being "[k+1] label", a line feed and
    the content of the k-th document; the sections are joined by two line
    feeds; the text is the one of the first eight documents alone; and
    the empty list gives exactly "No documents found.". *)
Theorem format_docs_first_eight (docs : list Document) :
  8 < length docs ->
  length (merged docs) = 8
  /\ (forall k, k < 8 ->
        exists d, docs !! k = Some d
          /\ merged docs !! k
             = Some ("[" ++ str_of_nat (S k) ++ "] "
                         ++ py_format (title_of (S k) d) ++ newline
                         ++ page_content d))
  /\ format_docs docs = join (newline ++ newline) (merged docs)
  /\ format_docs docs = format_docs (take 8 docs)
  /\ format_docs [] = "No documents found.".
Proof.
  intros Hlen. repeat split.
  - rewrite length_merged. lia.
  - intros k Hk.
    destruct (lookup_lt_is_Some_2 docs k) as [d Hd]; [lia|].
    exists d. split; [exact Hd|].
    rewrite lookup_merged by exact Hk. rewrite Hd. reflexivity.
  - destruct docs; [simpl in Hlen; lia | reflexivity].
  - destruct docs as [|d docs]; [simpl in Hlen; lia|].
    change (take 8 (d :: docs)) with (d :: take 7 docs).
    unfold format_docs.
    change (d :: take 7 docs) with (take 8 (d :: docs)).
    rewrite merged_take. reflexivity.
Qed.

Lemma format_docs_first_eight_witness :
  length (merged Demo.ten_docs) = 8
  /\ format_docs Demo.ten_docs = format_docs (take 8 Demo.ten_docs).
Proof.
  destruct (format_docs_first_eight Demo.ten_docs) as (H8 & _ & _ & Ht & _).
  - vm_compute. lia.
  - split; [exact H8 | exact Ht].
Defined.

(** What makes a metadata entry usable on line 30: the key is there and
    its value is true in Python's sense, so neither [None] nor the empty
    string. *)
Lemma truthy_dict_get (m : gmap string pyval) (key : string) :
  truthy (dict_get m key) = true
  <-> exists v, m !! key = Some v /\ truthy v = true.
Proof.
  unfold dict_get. split.
  - destruct (m !! key) as [v|]; simpl; [eauto | discriminate].
  - intros (v & -> & Hv). exact Hv.
Qed.

Lemma truthy_PStr (s : string) : truthy (PStr s) = true <-> s <> "".
Proof. destruct s; simpl; split; congruence. Qed.

(** C6. The document at place k (from 0) of the formatted list is labelled
    with its title when it has one (a non-empty string under "title"),
    otherwise with its source when it has one, otherwise with doc_<k+1>. *)
Theorem label_prefers_title_then_source (docs : list Document) (k : nat)
    (d : Document) :
  k < 8 -> docs !! k = Some d ->
  let title := dict_get (meta_of d) "title" in
  let source := dict_get (meta_of d) "source" in
  let label := py_format (title_of (S k) d) in
  merged docs !! k
  = Some ("[" ++ str_of_nat (S k) ++ "] " ++ label ++ newline
              ++ page_content d)
  /\ (truthy title = true -> label = py_format title)
  /\ (truthy title = false -> truthy source = true ->
      label = py_format source)
  /\ (truthy title = false -> truthy source = false ->
      label = "doc_" ++ str_of_nat (S k)).
Proof.
  intros Hk Hd title source label. repeat split.
  - rewrite lookup_merged by exact Hk. rewrite Hd. reflexivity.
  - intros Ht. unfold label, title_of, py_or. fold title source.
    rewrite Ht, Ht. reflexivity.
  - intros Ht Hs. unfold label, title_of, py_or. fold title source.
    rewrite Ht, Hs. reflexivity.
  - intros Ht Hs. unfold label, title_of, py_or. fold title source.
    rewrite Ht, Hs. reflexivity.
Qed.

Lemma label_prefers_title_then_source_witness :
  merged Demo.ten_docs !! 3 = Some ("[4] d.pdf" ++ newline ++ "d").
Proof.
  destruct (label_prefers_title_then_source Demo.ten_docs 3
              (mkDocument "d" (Some {[ "title" := PStr "";
                                       "source" := PStr "d.pdf" ]})))
    as (Hm & _ & Hsrc & _).
  - lia.
  - reflexivity.
  - rewrite Hm, Hsrc; reflexivity.
Defined.

(** ** The parts of the context and the answer *)

Lemma corpus_parts_cases (rr : string) :
  corpus_parts rr = []
  \/ (corpus_parts rr = ["Document corpus results:" ++ newline ++ rr]
      /\ isin "No documents found" rr = false
      /\ isin NO_DOCUMENTS_FOUND rr = false).
Proof.
  unfold corpus_parts.
  destruct (nonempty rr); [|left; reflexivity].
  destruct (isin "No documents found" rr) eqn:Hm; [left; reflexivity|].
  right. repeat split.
  destruct (isin NO_DOCUMENTS_FOUND rr) eqn:Hs; [|reflexivity].
  apply isin_no_documents in Hs. congruence.
Qed.

Lemma wikipedia_parts_cases (wr : string) :
  wikipedia_parts wr = []
  \/ (wikipedia_parts wr = ["Wikipedia results:" ++ newline ++ wr]
      /\ isin "Could not retrieve" wr = false
      /\ isin COULD_NOT_RETRIEVE wr = false).
Proof.
  unfold wikipedia_parts.
  destruct (nonempty wr); [|left; reflexivity].
  destruct (isin "Could not retrieve" wr) eqn:Hm; [left; reflexivity|].
  right. repeat split.
  destruct (isin COULD_NOT_RETRIEVE wr) eqn:Hs; [|reflexivity].
  apply isin_could_not_retrieve in Hs. congruence.
Qed.

(** A context made of sections starts with the D or the W of the first
    section, the sentinel of line 79 with an N. *)
Lemma full_context_sections (rr : string) (wiki : list string) :
  (wiki = [] \/ exists wr, wiki = ["Wikipedia results:" ++ newline ++ wr]) ->
  full_context (corpus_parts rr ++ wiki)%list = NO_RELEVANT_INFORMATION
  <-> (corpus_parts rr ++ wiki)%list = [].
Proof.
  intros Hw. split; [|intros ->; reflexivity].
  intros H. apply (f_equal (String.get 0)) in H.
  destruct (corpus_parts_cases rr) as [Hc | (Hc & _ & _)];
    destruct Hw as [Hw | (wr & Hw)]; rewrite Hc, Hw in *;
    solve [reflexivity | vm_compute in H; discriminate].
Qed.

(** The answer of line 92 is never [None] nor empty. *)
Lemma truthy_answer_of (resp : Response) :
  truthy (answer_of resp) = true
  /\ (forall s, content resp = Some (PStr s) -> s <> "" ->
      answer_of resp = PStr s).
Proof.
  unfold answer_of, py_or. split.
  - destruct (truthy (default PNone (content resp))) eqn:Ht;
      [exact Ht | reflexivity].
  - intros s -> Hs. simpl. destruct s; [congruence | reflexivity].
Qed.

Lemma dom_make_result (q : string) (docs : list Document) (a : pyval) :
  dom (make_result q docs a)
  = ({[ "question"; "retrieved_docs"; "answer" ]} : gset string).
Proof.
  unfold make_result. rewrite !dom_insert_L, dom_empty_L. set_solver.
Qed.

Lemma isin_no_documents_false (s : string) :
  isin "No documents found" s = false -> isin "No documents found." s = false.
Proof.
  intros H. destruct (isin "No documents found." s) eqn:Hs; [|reflexivity].
  apply isin_no_documents in Hs. congruence.
Qed.

Lemma isin_could_not_retrieve_false (s : string) :
  isin "Could not retrieve" s = false ->
  isin "Could not retrieve Wikipedia information." s = false.
Proof.
  intros H.
  destruct (isin "Could not retrieve Wikipedia information." s) eqn:Hs;
    [|reflexivity].
  apply isin_could_not_retrieve in Hs. congruence.
Qed.

Lemma nonempty_true (s : string) : nonempty s = true <-> s <> "".
Proof. destruct s; simpl; split; congruence. Qed.

(** Line 63, both ways. *)
Lemma corpus_parts_exact (rr : string) :
  (rr <> "" /\ isin "No documents found" rr = false
   /\ corpus_parts rr = ["Document corpus results:" ++ newline ++ rr])
  \/ (~ (rr <> "" /\ isin "No documents found" rr = false)
      /\ corpus_parts rr = []).
Proof.
  unfold corpus_parts.
  destruct (nonempty rr) eqn:Hne; cbn [andb].
  - apply nonempty_true in Hne.
    destruct (isin "No documents found" rr); cbn [negb];
      [right | left; auto].
    split; [|reflexivity]. intros [_ H]. discriminate.
  - right. split; [|reflexivity]. intros [H _].
    apply nonempty_true in H. congruence.
Qed.

(** Line 75, both ways. *)
Lemma wikipedia_parts_exact (wr : string) :
  (wr <> "" /\ isin "Could not retrieve" wr = false
   /\ wikipedia_parts wr = ["Wikipedia results:" ++ newline ++ wr])
  \/ (~ (wr <> "" /\ isin "Could not retrieve" wr = false)
      /\ wikipedia_parts wr = []).
Proof.
  unfold wikipedia_parts.
  destruct (nonempty wr) eqn:Hne; cbn [andb].
  - apply nonempty_true in Hne.
    destruct (isin "Could not retrieve" wr); cbn [negb];
      [right | left; auto].
    split; [|reflexivity]. intros [_ H]. discriminate.
  - right. split; [|reflexivity]. intros [H _].
    apply nonempty_true in H. congruence.
Qed.

(** ** The pipeline *)

Section PipelineFacts.
Context {W E : Type}.
Variable retriever_invoke : string -> M W E (list Document).
Variable llm_invoke : string -> M W E Response.
Variable wikipedia : WikipediaLib W E.

(** [run], call by call. *)
Lemma run_steps (q : string) (w : W) :
  run retriever_invoke llm_invoke wikipedia q w =
  match retriever_invoke q w with
  | (Raised e, w1) => (Raised e, w1)
  | (Returned docs1, w1) =>
      match retriever_invoke q w1 with
      | (Raised e, w2) => (Raised e, w2)
      | (Returned docs2, w2) =>
          match gather_context wikipedia q (format_docs docs2) w2 with
          | (Raised e, w3) => (Raised e, w3)
          | (Returned parts, w3) =>
              match llm_invoke (build_prompt (full_context parts) q) w3 with
              | (Raised e, w4) => (Raised e, w4)
              | (Returned resp, w4) =>
                  (Returned (make_result q docs1 (answer_of resp)), w4)
              end
          end
      end
  end.
Proof.
  unfold run, _get_retriever_results, bind, ret.
  destruct (retriever_invoke q w) as [[docs1|e] w1]; [|reflexivity].
  destruct (retriever_invoke q w1) as [[docs2|e] w2]; [|reflexivity].
  destruct (gather_context wikipedia q (format_docs docs2) w2)
    as [[parts|e] w3]; [|reflexivity].
  destruct (llm_invoke _ w3) as [[resp|e] w4]; reflexivity.
Qed.

(** The fetch of lines 34-42, call by call: only the call of line 40 is
    inside the [try]. *)
Lemma fetch_steps (q : string) (w : W) :
  _get_wikipedia_results wikipedia q w =
  match new_wikipedia wikipedia w with
  | (Raised e, w0) => (Raised e, w0)
  | (Returned wiki, w0) =>
      match tool_run wikipedia wiki q w0 with
      | (Returned s, w') => (Returned s, w')
      | (Raised _, w') => (Returned COULD_NOT_RETRIEVE, w')
      end
  end.
Proof.
  unfold _get_wikipedia_results, bind, try_except, ret.
  destruct (new_wikipedia wikipedia w) as [[wiki|e] w0]; reflexivity.
Qed.

Lemma fetch_returns (q : string) (w w0 : W) (wiki : tool wikipedia) :
  new_wikipedia wikipedia w = (Returned wiki, w0) ->
  exists s w', _get_wikipedia_results wikipedia q w = (Returned s, w').
Proof.
  intros H. rewrite fetch_steps, H.
  destruct (tool_run wikipedia wiki q w0) as [[s|e] w']; eauto.
Qed.

Lemma gather_steps (q rr : string) (w : W) :
  (needs_wikipedia q rr = false
   /\ gather_context wikipedia q rr w = (Returned (corpus_parts rr), w))
  \/ (needs_wikipedia q rr = true
      /\ gather_context wikipedia q rr w =
         match _get_wikipedia_results wikipedia q w with
         | (Returned wr, w') =>
             (Returned (corpus_parts rr ++ wikipedia_parts wr)%list, w')
         | (Raised e, w') => (Raised e, w')
         end).
Proof.
  unfold gather_context, bind, ret.
  destruct (needs_wikipedia q rr); [right | left; auto].
  split; [reflexivity|].
  destruct (_get_wikipedia_results wikipedia q w) as [[wr|e] w']; reflexivity.
Qed.

(** The context is gathered when Wikipedia is not needed, and when it is
    needed and the tool can be built. *)
Lemma gather_returns (q rr : string) (w : W) :
  needs_wikipedia q rr = false
  \/ (exists wiki w0, new_wikipedia wikipedia w = (Returned wiki, w0)) ->
  exists parts w', gather_context wikipedia q rr w = (Returned parts, w').
Proof.
  intros H.
  destruct (gather_steps q rr w) as [[_ Hg]|[Hn Hg]]; [eauto|].
  destruct H as [H|(wiki & w0 & H)]; [congruence|].
  destruct (fetch_returns q w w0 wiki H) as (s & w' & Hs).
  rewrite Hs in Hg. eauto.
Qed.

(** C7. Once the context parts are gathered, with the text of Wikipedia
    when it was needed and none otherwise: the corpus section is kept
    exactly for a text that is not empty and has not the words "No
    documents found" (hence not the sentinel of line 25), the Wikipedia
    section exactly when Wikipedia was needed and its text is not empty
    and has not the words "Could not retrieve" (hence not the sentinel of
    line 42); the parts are the kept sections, the corpus one first; the
    context is their join by two line feeds, and it is the sentinel "No
    relevant information found." exactly when no section is kept. *)
Theorem context_sentinel_iff_no_section (q rr : string) (w w' : W)
    (parts : list string) :
  gather_context wikipedia q rr w = (Returned parts, w') ->
  exists fallback : option string,
    match fallback with
    | None => needs_wikipedia q rr = false /\ w' = w
    | Some wr =>
        needs_wikipedia q rr = true
        /\ _get_wikipedia_results wikipedia q w = (Returned wr, w')
    end
    /\ let corpus_kept :=
         rr <> "" /\ isin "No documents found" rr = false in
       let wikipedia_kept :=
         exists wr, fallback = Some wr /\ wr <> ""
                    /\ isin "Could not retrieve" wr = false in
       let corpus_section := "Document corpus results:" ++ newline ++ rr in
       let wikipedia_section :=
         "Wikipedia results:" ++ newline ++ default "" fallback in
       (~ corpus_kept -> ~ wikipedia_kept -> parts = [])
       /\ (corpus_kept -> ~ wikipedia_kept -> parts = [corpus_section])
       /\ (~ corpus_kept -> wikipedia_kept -> parts = [wikipedia_section])
       /\ (corpus_kept -> wikipedia_kept ->
           parts = [corpus_section; wikipedia_section])
       /\ (full_context parts = "No relevant information found."
           <-> ~ corpus_kept /\ ~ wikipedia_kept)
       /\ (parts <> [] ->
           full_context parts = join (newline ++ newline) parts)
       /\ (corpus_kept -> isin "No documents found." rr = false)
       /\ (wikipedia_kept ->
           isin "Could not retrieve Wikipedia information."
                (default "" fallback) = false).
Proof.
  clear retriever_invoke llm_invoke. intros Hg.
  assert (Hparts : exists fallback : option string,
             match fallback with
             | None => needs_wikipedia q rr = false /\ w' = w
             | Some wr =>
                 needs_wikipedia q rr = true
                 /\ _get_wikipedia_results wikipedia q w = (Returned wr, w')
             end
             /\ parts = (corpus_parts rr
                         ++ from_option wikipedia_parts [] fallback)%list).
  { destruct (gather_steps q rr w) as [[Hn Hg']|[Hn Hg']];
      rewrite Hg' in Hg.
    - injection Hg as <- <-. exists None. rewrite app_nil_r. auto.
    - destruct (_get_wikipedia_results wikipedia q w) as [[wr|e] w0];
        [|discriminate].
      injection Hg as <- <-. exists (Some wr). auto. }
  destruct Hparts as (fallback & Hlink & ->).
  exists fallback. split; [exact Hlink|]. clear Hlink Hg.
  intros corpus_kept wikipedia_kept corpus_section wikipedia_section.
  assert (Hsent : full_context
                    (corpus_parts rr ++ from_option wikipedia_parts [] fallback)
                  = "No relevant information found."
                  <-> (corpus_parts rr
                       ++ from_option wikipedia_parts [] fallback)%list = []).
  { apply full_context_sections. destruct fallback as [wr|]; simpl.
    - destruct (wikipedia_parts_exact wr) as [(_ & _ & ->)|(_ & ->)]; eauto.
    - left. reflexivity. }
  assert (Hw : (wikipedia_kept
                /\ from_option wikipedia_parts [] fallback
                   = [wikipedia_section]
                /\ isin "Could not retrieve Wikipedia information."
                        (default "" fallback) = false)
               \/ (~ wikipedia_kept
                   /\ from_option wikipedia_parts [] fallback = [])).
  { destruct fallback as [wr|]; simpl.
    - destruct (wikipedia_parts_exact wr) as [(Hne & Hm & ->)|(Hn & ->)].
      + left. split; [exists wr; auto|]. split; [reflexivity|].
        apply isin_could_not_retrieve_false, Hm.
      + right. split; [|reflexivity].
        intros (wr' & [= <-] & Hne & Hm). apply Hn. auto.
    - right. split; [|reflexivity]. intros (wr' & [=] & _). }
  assert (Hc : (corpus_kept /\ corpus_parts rr = [corpus_section]
                /\ isin "No documents found." rr = false)
               \/ (~ corpus_kept /\ corpus_parts rr = [])).
  { destruct (corpus_parts_exact rr) as [(Hne & Hm & ->)|(Hn & ->)].
    - left. split; [split; assumption|]. split; [reflexivity|].
      apply isin_no_documents_false, Hm.
    - right. split; [exact Hn | reflexivity]. }
  clearbody corpus_kept wikipedia_kept corpus_section wikipedia_section.
  destruct Hc as [(Hc & Ec & Hcs)|(Hc & Ec)];
    destruct Hw as [(Hw & Ew & Hws)|(Hw & Ew)];
    rewrite Ec, Ew in Hsent |- *; cbn [app] in Hsent |- *;
    (split; [|split; [|split; [|split; [|split; [|split; [|split]]]]]]);
    try rewrite Hsent; intros;
      try tauto; try discriminate; try reflexivity; try congruence;
      (split; [discriminate | tauto]).
Qed.

(** C8, as the code has it. Once the tool is built (lines 36-38, before
    the [try]), the fetch returns, for every query: it returns what the
    call of line 40 returned, and when that call raised it returns
    exactly "Could not retrieve Wikipedia information.". *)
Theorem wikipedia_fetch_never_raises (q : string) (w w0 : W)
    (wiki : tool wikipedia) :
  new_wikipedia wikipedia w = (Returned wiki, w0) ->
  (exists s w', _get_wikipedia_results wikipedia q w = (Returned s, w'))
  /\ (forall s w', tool_run wikipedia wiki q w0 = (Returned s, w') ->
        _get_wikipedia_results wikipedia q w = (Returned s, w'))
  /\ (forall e w', tool_run wikipedia wiki q w0 = (Raised e, w') ->
        _get_wikipedia_results wikipedia q w
        = (Returned "Could not retrieve Wikipedia information.", w')).
Proof.
  intros Hnew. split; [|split].
  - exact (fetch_returns q w w0 wiki Hnew).
  - intros s w' H. rewrite fetch_steps, Hnew, H. reflexivity.
  - intros e w' H. rewrite fetch_steps, Hnew, H. reflexivity.
Qed.

(** C9. When the first or the second call of the retriever raises, or the
    call of the model raises, [run] raises the same exception and returns
    no dictionary. *)
Theorem run_propagates_failure (q : string) (w w' : W) (e : E) :
  retriever_invoke q w = (Raised e, w')
  \/ (exists docs1 w1,
        retriever_invoke q w = (Returned docs1, w1)
        /\ retriever_invoke q w1 = (Raised e, w'))
  \/ (exists docs1 w1 docs2 w2 parts w3,
        retriever_invoke q w = (Returned docs1, w1)
        /\ retriever_invoke q w1 = (Returned docs2, w2)
        /\ gather_context wikipedia q (format_docs docs2) w2
           = (Returned parts, w3)
        /\ llm_invoke (build_prompt (full_context parts) q) w3
           = (Raised e, w')) ->
  run retriever_invoke llm_invoke wikipedia q w = (Raised e, w')
  /\ forall r w'',
      run retriever_invoke llm_invoke wikipedia q w <> (Returned r, w'').
Proof.
  intros H.
  assert (Hr : run retriever_invoke llm_invoke wikipedia q w
               = (Raised e, w')).
  { rewrite run_steps.
    destruct H as [H1 | [(docs1 & w1 & H1 & H2)
                        | (docs1 & w1 & docs2 & w2 & parts & w3
                           & H1 & H2 & H3 & H4)]].
    - rewrite H1. reflexivity.
    - rewrite H1, H2. reflexivity.
    - rewrite H1, H2, H3, H4. reflexivity. }
  split; [exact Hr|]. intros r w''. rewrite Hr. discriminate.
Qed.

(** [run] returns as soon as the two calls of the retriever and the call
    of the model do. *)
Lemma run_returns (q : string) (w w1 w2 w3 w4 : W)
    (docs1 docs2 : list Document) (parts : list string) (resp : Response) :
  retriever_invoke q w = (Returned docs1, w1) ->
  retriever_invoke q w1 = (Returned docs2, w2) ->
  gather_context wikipedia q (format_docs docs2) w2
  = (Returned parts, w3) ->
  llm_invoke (build_prompt (full_context parts) q) w3 = (Returned resp, w4) ->
  run retriever_invoke llm_invoke wikipedia q w
  = (Returned (make_result q docs1 (answer_of resp)), w4).
Proof.
  intros H1 H2 H3 H4. rewrite run_steps, H1, H2, H3, H4. reflexivity.
Qed.

(** C4. When the two calls of the retriever and the call of the model
    return, [run] returns a dictionary with exactly the keys question,
    retrieved_docs and answer; retrieved_docs is the whole list that the
    first call of the retriever returned, and answer is there and is
    neither [None] nor empty: it is the content of the response when
    that is a text that is not empty. *)
Theorem run_returns_three_fields (q : string) (w w1 w2 w3 w4 : W)
    (docs1 docs2 : list Document) (parts : list string) (resp : Response) :
  retriever_invoke q w = (Returned docs1, w1) ->
  retriever_invoke q w1 = (Returned docs2, w2) ->
  gather_context wikipedia q (format_docs docs2) w2
  = (Returned parts, w3) ->
  llm_invoke (build_prompt (full_context parts) q) w3 = (Returned resp, w4) ->
  exists r : gmap string result_val,
    run retriever_invoke llm_invoke wikipedia q w = (Returned r, w4)
    /\ dom r = ({[ "question"; "retrieved_docs"; "answer" ]} : gset string)
    /\ r !! "question" = Some (VStr q)
    /\ r !! "retrieved_docs" = Some (VDocs docs1)
    /\ exists a,
         r !! "answer" = Some (VAny a) /\ truthy a = true
         /\ (forall s, content resp = Some (PStr s) -> s <> "" -> a = PStr s).
Proof.
  intros H1 H2 H3 H4.
  exists (make_result q docs1 (answer_of resp)).
  split; [eapply run_returns; eassumption|].
  split; [apply dom_make_result|].
  destruct (truthy_answer_of resp) as [Ht Hs].
  repeat split. exists (answer_of resp). auto.
Qed.

(** C10. When the response of the model has no content attribute, or a
    content that is None or the empty string, the answer of the returned
    dictionary is exactly "Could not generate answer.". *)
Theorem empty_content_gives_sentinel (q : string) (w w1 w2 w3 w4 : W)
    (docs1 docs2 : list Document) (parts : list string) (resp : Response) :
  retriever_invoke q w = (Returned docs1, w1) ->
  retriever_invoke q w1 = (Returned docs2, w2) ->
  gather_context wikipedia q (format_docs docs2) w2
  = (Returned parts, w3) ->
  llm_invoke (build_prompt (full_context parts) q) w3 = (Returned resp, w4) ->
  content resp = None \/ content resp = Some PNone
  \/ content resp = Some (PStr "") ->
  exists r : gmap string result_val,
    run retriever_invoke llm_invoke wikipedia q w = (Returned r, w4)
    /\ r !! "answer" = Some (VAny (PStr "Could not generate answer.")).
Proof.
  intros H1 H2 H3 H4 Hc.
  exists (make_result q docs1 (answer_of resp)).
  split; [eapply run_returns; eassumption|].
  unfold answer_of. destruct Hc as [-> | [-> | ->]]; reflexivity.
Qed.

End PipelineFacts.

(** ** The pipeline on the sample collaborators *)

(** Scenario 2: nothing retrieved, Wikipedia answers; the only part is
    the Wikipedia section. *)
Lemma context_sentinel_iff_no_section_witness :
  exists fallback : option string,
    match fallback with
    | None =>
        needs_wikipedia "Where is Paris?" (format_docs []) = false
        /\ ["WikipediaAPIWrapper"; "WikipediaQueryRun"; "wikipedia.run"] = []
    | Some wr =>
        needs_wikipedia "Where is Paris?" (format_docs []) = true
        /\ _get_wikipedia_results
             (Demo.wikipedia "Paris is the capital of France.")
             "Where is Paris?" []
           = (Returned wr,
              ["WikipediaAPIWrapper"; "WikipediaQueryRun"; "wikipedia.run"])
    end
    /\ let parts :=
         ["Wikipedia results:" ++ newline
          ++ "Paris is the capital of France."] in
       let corpus_kept :=
         format_docs [] <> ""
         /\ isin "No documents found" (format_docs []) = false in
       let wikipedia_kept :=
         exists wr, fallback = Some wr /\ wr <> ""
                    /\ isin "Could not retrieve" wr = false in
       let corpus_section :=
         "Document corpus results:" ++ newline ++ format_docs [] in
       let wikipedia_section :=
         "Wikipedia results:" ++ newline ++ default "" fallback in
       (~ corpus_kept -> ~ wikipedia_kept -> parts = [])
       /\ (corpus_kept -> ~ wikipedia_kept -> parts = [corpus_section])
       /\ (~ corpus_kept -> wikipedia_kept -> parts = [wikipedia_section])
       /\ (corpus_kept -> wikipedia_kept ->
           parts = [corpus_section; wikipedia_section])
       /\ (full_context parts = "No relevant information found."
           <-> ~ corpus_kept /\ ~ wikipedia_kept)
       /\ (parts <> [] ->
           full_context parts = join (newline ++ newline) parts)
       /\ (corpus_kept -> isin "No documents found." (format_docs []) = false)
       /\ (wikipedia_kept ->
           isin "Could not retrieve Wikipedia information."
                (default "" fallback) = false).
Proof.
  apply (context_sentinel_iff_no_section
           (Demo.wikipedia "Paris is the capital of France.")
           "Where is Paris?" (format_docs []) []
           ["WikipediaAPIWrapper"; "WikipediaQueryRun"; "wikipedia.run"]
           ["Wikipedia results:" ++ newline
            ++ "Paris is the capital of France."]).
  vm_compute. reflexivity.
Defined.

(** Scenario 4: the tool is built, its search raises, the fetch returns
    the sentinel. *)
Lemma wikipedia_fetch_never_raises_witness :
  _get_wikipedia_results Demo.failing_wikipedia "Where is Paris?" []
  = (Returned "Could not retrieve Wikipedia information.",
     ["WikipediaAPIWrapper"; "WikipediaQueryRun"; "wikipedia.run"]).
Proof.
  refine (proj2 (proj2 (wikipedia_fetch_never_raises Demo.failing_wikipedia
                          "Where is Paris?" []
                          ["WikipediaAPIWrapper"; "WikipediaQueryRun"]
                          (3, "en") _)) "HTTPError" _ _);
    reflexivity.
Defined.

(** C8 fails as stated: when the package that the wrapper imports is not
    installed, its constructor raises on line 37, before the [try], and
    the fetch raises. *)
Lemma wikipedia_fetch_raises_when_not_built :
  _get_wikipedia_results Demo.missing_wikipedia "Where is Paris?" []
  = (Raised "ImportError", ["WikipediaAPIWrapper"])
  /\ forall s w',
      _get_wikipedia_results Demo.missing_wikipedia "Where is Paris?" []
      <> (Returned s, w').
Proof.
  split; [reflexivity|]. intros s w' H. vm_compute in H. discriminate.
Qed.

(** Scenario 6, and the failures of the second call and of the model. *)
Lemma run_propagates_failure_witness :
  run Demo.failing_retriever (Demo.llm (Some (PStr "fine")))
      Demo.failing_wikipedia "hello" []
  = (Raised "ConnectionError", ["retriever.invoke"])
  /\ run (Demo.flaky_retriever Demo.long_docs) (Demo.llm (Some (PStr "fine")))
         Demo.failing_wikipedia "hello" []
     = (Raised "ConnectionError", ["retriever.invoke"; "retriever.invoke"])
  /\ run (Demo.retriever Demo.long_docs) Demo.failing_llm
         Demo.failing_wikipedia "hello" []
     = (Raised "TimeoutError",
        ["retriever.invoke"; "retriever.invoke"; "llm.invoke"]).
Proof.
  split; [|split].
  - apply run_propagates_failure. left. reflexivity.
  - apply run_propagates_failure. right. left.
    exists Demo.long_docs, ["retriever.invoke"]. split; reflexivity.
  - apply run_propagates_failure. right. right.
    exists Demo.long_docs, ["retriever.invoke"],
           Demo.long_docs, ["retriever.invoke"; "retriever.invoke"],
           (corpus_parts (format_docs Demo.long_docs)),
           ["retriever.invoke"; "retriever.invoke"].
    split; [reflexivity|]. split; [reflexivity|].
    split; [vm_compute; reflexivity | reflexivity].
Defined.

(** Ten documents retrieved: all ten are in the result, though eight were
    formatted. *)
Lemma run_returns_three_fields_witness :
  exists r : gmap string result_val,
    run (Demo.retriever Demo.ten_docs) (Demo.llm (Some (PStr "An answer.")))
        Demo.failing_wikipedia "What is this?" []
    = (Returned r, ["retriever.invoke"; "retriever.invoke";
                    "WikipediaAPIWrapper"; "WikipediaQueryRun";
                    "wikipedia.run"; "llm.invoke"])
    /\ dom r = ({[ "question"; "retrieved_docs"; "answer" ]} : gset string)
    /\ r !! "question" = Some (VStr "What is this?")
    /\ r !! "retrieved_docs" = Some (VDocs Demo.ten_docs)
    /\ exists a,
         r !! "answer" = Some (VAny a) /\ truthy a = true
         /\ (forall s, Some (PStr "An answer.") = Some (PStr s) -> s <> "" ->
             a = PStr s).
Proof.
  apply (run_returns_three_fields _ _ _ "What is this?" []
           ["retriever.invoke"] ["retriever.invoke"; "retriever.invoke"]
           ["retriever.invoke"; "retriever.invoke"; "WikipediaAPIWrapper";
            "WikipediaQueryRun"; "wikipedia.run"] _
           Demo.ten_docs Demo.ten_docs
           (corpus_parts (format_docs Demo.ten_docs))
           (mkResponse (Some (PStr "An answer.")))).
  - reflexivity.
  - reflexivity.
  - vm_compute. reflexivity.
  - reflexivity.
Defined.

(** Scenario 5, with a content that is there and empty. *)
Lemma empty_content_gives_sentinel_witness :
  exists r : gmap string result_val,
    run (Demo.retriever Demo.long_docs) (Demo.llm (Some (PStr "")))
        Demo.failing_wikipedia "hello" []
    = (Returned r, ["retriever.invoke"; "retriever.invoke"; "llm.invoke"])
    /\ r !! "answer" = Some (VAny (PStr "Could not generate answer.")).
Proof.
  apply (empty_content_gives_sentinel _ _ _ "hello" []
           ["retriever.invoke"] ["retriever.invoke"; "retriever.invoke"]
           ["retriever.invoke"; "retriever.invoke"] _
           Demo.long_docs Demo.long_docs
           (corpus_parts (format_docs Demo.long_docs))
           (mkResponse (Some (PStr "")))).
  - reflexivity.
  - reflexivity.
  - vm_compute. reflexivity.
  - reflexivity.
  - right. right. reflexivity.
Defined.

(** * Further properties of the code *)

(** ** More on substrings, trimming and lower case *)

Lemma prefix_app_same (p s : string) : String.prefix p (p ++ s) = true.
Proof.
  induction p as [|c p IH]; simpl.
  - destruct s; reflexivity.
  - destruct (Ascii.ascii_dec c c); [exact IH | congruence].
Qed.

Lemma prefix_app_r (p s b : string) :
  String.prefix p s = true -> String.prefix p (s ++ b) = true.
Proof.
  revert s. induction p as [|c p IH]; intros s H.
  - destruct (s ++ b); reflexivity.
  - destruct s as [|c' s]; simpl in *; [discriminate|].
    destruct (Ascii.ascii_dec c c'); [apply IH; exact H | discriminate].
Qed.

Lemma isin_app_right (p a s : string) :
  isin p s = true -> isin p (a ++ s) = true.
Proof.
  intros H. induction a as [|c a IH]; [exact H|].
  change (String c a ++ s) with (String c (a ++ s)).
  cbn [isin]. rewrite IH. apply orb_true_r.
Qed.

Lemma isin_app_left (p s b : string) :
  isin p s = true -> isin p (s ++ b) = true.
Proof.
  induction s as [|c s IH]; cbn [isin]; intros H.
  - apply orb_true_iff in H as [H|H]; [|discriminate].
    destruct p; [|discriminate]. destruct b; reflexivity.
  - change (String c s ++ b) with (String c (s ++ b)). cbn [isin].
    apply orb_true_iff in H as [H|H]; apply orb_true_iff.
    + left. apply (prefix_app_r p (String c s) b H).
    + right. exact (IH H).
Qed.

Lemma prefix_refl (p : string) : String.prefix p p = true.
Proof.
  induction p as [|c p IH]; simpl; [reflexivity|].
  destruct (Ascii.ascii_dec c c); [exact IH | congruence].
Qed.

Lemma isin_refl (p : string) : isin p p = true.
Proof. destruct p; cbn [isin]; rewrite prefix_refl; reflexivity. Qed.

Lemma isin_middle (p a b : string) : isin p (a ++ p ++ b) = true.
Proof. apply isin_app_right, isin_app_left, isin_refl. Qed.

Lemma isin_join (p sep x : string) (l : list string) :
  In x l -> isin p x = true -> isin p (join sep l) = true.
Proof.
  unfold join. intros Hin Hp. induction l as [|y l IH]; [destruct Hin|].
  destruct l as [|z l].
  - destruct Hin as [->|[]]. exact Hp.
  - change (String.concat sep (y :: z :: l))
      with (y ++ sep ++ String.concat sep (z :: l)).
    destruct Hin as [->|Hin].
    + apply isin_app_left, Hp.
    + apply isin_app_right, isin_app_right, IH, Hin.
Qed.

Lemma length_lstrip (s : string) : String.length (lstrip s) <= String.length s.
Proof.
  induction s as [|c s IH]; simpl; [lia|].
  destruct (isspace c); simpl; lia.
Qed.

Lemma length_rstrip (s : string) : String.length (rstrip s) <= String.length s.
Proof.
  induction s as [|c s IH]; simpl; [lia|].
  destruct (rstrip s); [destruct (isspace c)|]; simpl in *; lia.
Qed.

Lemma length_strip (s : string) : String.length (strip s) <= String.length s.
Proof.
  unfold strip. pose proof (length_rstrip (lstrip s)).
  pose proof (length_lstrip s). lia.
Qed.

Lemma lower_char_idem (c : ascii) : lower_char (lower_char c) = lower_char c.
Proof.
  destruct c as [[] [] [] [] [] [] [] []]; vm_compute; reflexivity.
Qed.

Lemma lower_idem (s : string) : lower (lower s) = lower s.
Proof.
  induction s as [|c s IH]; simpl; [reflexivity|].
  rewrite lower_char_idem, IH. reflexivity.
Qed.

Lemma lower_app (a b : string) : lower (a ++ b) = lower a ++ lower b.
Proof.
  induction a as [|c a IH]; [reflexivity|].
  change (String c a ++ b) with (String c (a ++ b)). simpl.
  rewrite IH. reflexivity.
Qed.

(** ** The decision as a whole *)

(** [_should_use_wikipedia] in one formula: its guard on the empty text
    is covered by the test on the trimmed length. *)
Lemma should_use_wikipedia_formula (q t : string) :
  _should_use_wikipedia q t
  = isin "No documents found" t
    || (String.length (strip t) <? 200)%nat
    || (existsb (fun indicator => isin indicator (lower q))
                general_knowledge_indicators
        && (String.length (strip t) <? 500)%nat).
Proof.
  unfold _should_use_wikipedia.
  destruct t as [|c t]; [reflexivity|].
  cbn [nonempty negb orb].
  destruct (isin "No documents found" (String c t)); [reflexivity|].
  destruct (String.length (strip (String c t)) <? 200)%nat; reflexivity.
Qed.

Lemma needs_wikipedia_formula (q t : string) :
  needs_wikipedia q t
  = isin "No documents found" t
    || (String.length (strip t) <? 200)%nat
    || (existsb (fun indicator => isin indicator (lower q))
                general_knowledge_indicators
        && (String.length (strip t) <? 500)%nat).
Proof.
  unfold needs_wikipedia. rewrite should_use_wikipedia_formula.
  destruct (isin "No documents found" t); [reflexivity|].
  destruct (String.length (strip t) <? 100)%nat eqn:H100; [|reflexivity].
  apply Nat.ltb_lt in H100.
  replace (String.length (strip t) <? 200)%nat with true
    by (symmetry; apply Nat.ltb_lt; lia).
  reflexivity.
Qed.

(** X1. The decision of lines 67-71 is the one of [_should_use_wikipedia]
    alone: the tests of lines 68 and 69 (the words "No documents found",
    a trimmed length under 100) never change it.  It is true exactly when
    the text has the words, or its trimmed length is under 200, or the
    question has a pattern and the trimmed length is under 500. *)
Theorem needs_wikipedia_is_should_use_wikipedia (q t : string) :
  needs_wikipedia q t = _should_use_wikipedia q t
  /\ (needs_wikipedia q t = true
      <-> isin "No documents found" t = true
          \/ String.length (strip t) < 200
          \/ ((exists p, In p general_knowledge_indicators
                         /\ isin p (lower q) = true)
              /\ String.length (strip t) < 500)).
Proof.
  split.
  - rewrite needs_wikipedia_formula, should_use_wikipedia_formula.
    reflexivity.
  - rewrite needs_wikipedia_formula, !orb_true_iff, andb_true_iff.
    rewrite !Nat.ltb_lt, existsb_exists. tauto.
Qed.

(** X2. A text of fewer than 200 characters, trimmed or not, always needs
    Wikipedia: trimming never lengthens a text. *)
Theorem text_under_200_needs_wikipedia (q t : string) :
  String.length t < 200 -> needs_wikipedia q t = true.
Proof.
  intros H. rewrite needs_wikipedia_formula.
  pose proof (length_strip t) as Hs.
  replace (String.length (strip t) <? 200)%nat with true
    by (symmetry; apply Nat.ltb_lt; lia).
  rewrite orb_true_r. reflexivity.
Qed.

Lemma text_under_200_needs_wikipedia_witness :
  needs_wikipedia "Summarise the note" (format_docs Demo.short_docs) = true.
Proof.
  apply text_under_200_needs_wikipedia. apply Nat.ltb_lt.
  vm_compute. reflexivity.
Defined.

(** X3. The decision reads the question through [lower] only: questions
    that differ in letter case get the same decision, and lower-casing
    the question beforehand changes nothing. *)
Theorem needs_wikipedia_ignores_case (q q' t : string) :
  (lower q = lower q' -> needs_wikipedia q t = needs_wikipedia q' t)
  /\ needs_wikipedia (lower q) t = needs_wikipedia q t.
Proof.
  split.
  - intros H. rewrite !needs_wikipedia_formula, H. reflexivity.
  - rewrite !needs_wikipedia_formula, lower_idem. reflexivity.
Qed.

Lemma needs_wikipedia_ignores_case_witness :
  needs_wikipedia "WHAT IS A REPORT" (format_docs Demo.medium_docs)
  = needs_wikipedia "What is a report" (format_docs Demo.medium_docs).
Proof.
  refine (proj1 (needs_wikipedia_ignores_case _ _ _) _).
  vm_compute. reflexivity.
Defined.

(** X4. The patterns are looked for as substrings: a question with a
    pattern anywhere, in any letter case, even inside a longer word,
    needs Wikipedia as soon as the trimmed text is under 500 characters. *)
Theorem pattern_anywhere_needs_wikipedia (before m after p t : string) :
  In p general_knowledge_indicators ->
  lower m = p ->
  String.length (strip t) < 500 ->
  needs_wikipedia (before ++ m ++ after) t = true.
Proof.
  intros Hin Hm Hlen. rewrite needs_wikipedia_formula.
  apply Nat.ltb_lt in Hlen. rewrite Hlen, andb_true_r.
  replace (existsb _ general_knowledge_indicators) with true;
    [apply orb_true_r|].
  symmetry. apply existsb_exists. exists p. split; [exact Hin|].
  rewrite !lower_app, Hm. apply isin_middle.
Qed.

Lemma pattern_anywhere_needs_wikipedia_witness :
  needs_wikipedia ("Is this un" ++ "Define" ++ "d behaviour?")
    (format_docs Demo.medium_docs) = true.
Proof.
  apply (pattern_anywhere_needs_wikipedia _ _ _ "define").
  - right. right. left. reflexivity.
  - reflexivity.
  - apply Nat.ltb_lt. vm_compute. reflexivity.
Defined.

(** ** The formatted text of a list that is not empty *)

Lemma prefix_render_first (d : Document) :
  String.prefix "[1] " (render 1 d) = true.
Proof.
  exact (prefix_app_same "[1] "
           (py_format (title_of 1 d) ++ newline ++ page_content d)).
Qed.

Lemma prefix_join_head (p sep x : string) (l : list string) :
  String.prefix p x = true -> String.prefix p (join sep (x :: l)) = true.
Proof.
  intros H. destruct l as [|y l]; [exact H|].
  change (join sep (x :: y :: l)) with (x ++ sep ++ join sep (y :: l)).
  apply prefix_app_r, H.
Qed.

Lemma prefix_format_docs (d : Document) (docs : list Document) :
  String.prefix "[1] " (format_docs (d :: docs)) = true.
Proof.
  unfold format_docs, merged.
  change (take 8 (d :: docs)) with (d :: take 7 docs).
  cbn [enumerate map]. apply prefix_join_head, prefix_render_first.
Qed.

Lemma In_merged (docs : list Document) (k : nat) (d : Document) :
  k < 8 -> docs !! k = Some d -> In (render (S k) d) (merged docs).
Proof.
  intros Hk Hd. apply list_elem_of_In, list_elem_of_lookup. exists k.
  rewrite lookup_merged by exact Hk. rewrite Hd. reflexivity.
Qed.

(** X5. For a list of documents that is not empty, the formatted text has
    as many sections as documents, at most 8, each of the first eight
    documents at its place; it starts with "[1] ", so it is neither empty
    nor the sentinel "No documents found.". *)
Theorem format_docs_of_documents (docs : list Document) :
  docs <> [] ->
  format_docs docs = join (newline ++ newline) (merged docs)
  /\ length (merged docs) = min 8 (length docs)
  /\ (forall k d, k < 8 -> docs !! k = Some d ->
      merged docs !! k = Some (render (S k) d))
  /\ String.prefix "[1] " (format_docs docs) = true
  /\ format_docs docs <> ""
  /\ format_docs docs <> "No documents found.".
Proof.
  intros Hne. destruct docs as [|d docs]; [congruence|].
  pose proof (prefix_format_docs d docs) as Hp.
  split; [reflexivity|]. split; [apply length_merged|].
  split; [|split; [exact Hp|split]].
  - intros k d' Hk Hd. rewrite lookup_merged by exact Hk.
    rewrite Hd. reflexivity.
  - intros H. rewrite H in Hp. discriminate.
  - intros H. rewrite H in Hp. discriminate.
Qed.

Lemma format_docs_of_documents_witness :
  length (merged Demo.short_docs) = 1
  /\ String.prefix "[1] " (format_docs Demo.short_docs) = true.
Proof.
  destruct (format_docs_of_documents Demo.short_docs)
    as (_ & Hlen & _ & Hp & _).
  - discriminate.
  - split; [exact Hlen | exact Hp].
Defined.

(** X6. One document among the first eight with the words "No documents
    found" in its content or in its label is enough to drop the whole
    corpus section from the context and to send the question to
    Wikipedia, whatever the other documents and the question are. *)
Theorem quoted_words_drop_corpus (docs : list Document) (k : nat)
    (d : Document) (q : string) :
  k < 8 -> docs !! k = Some d ->
  isin "No documents found" (page_content d) = true
  \/ isin "No documents found" (py_format (title_of (S k) d)) = true ->
  corpus_parts (format_docs docs) = []
  /\ needs_wikipedia q (format_docs docs) = true.
Proof.
  intros Hk Hd Hq.
  assert (Hr : isin "No documents found" (render (S k) d) = true).
  { unfold render. destruct Hq as [Hq|Hq].
    - apply (isin_app_right _ "["), (isin_app_right _ (str_of_nat (S k))),
        (isin_app_right _ "] "),
        (isin_app_right _ (py_format (title_of (S k) d))),
        (isin_app_right _ newline).
      exact Hq.
    - apply (isin_app_right _ "["), (isin_app_right _ (str_of_nat (S k))),
        (isin_app_right _ "] "), isin_app_left.
      exact Hq. }
  assert (Hf : isin "No documents found" (format_docs docs) = true).
  { destruct docs as [|d0 docs]; [discriminate|].
    unfold format_docs.
    apply (isin_join _ _ (render (S k) d)); [|exact Hr].
    apply In_merged; assumption. }
  split.
  - unfold corpus_parts. rewrite Hf, andb_false_r. reflexivity.
  - apply needs_wikipedia_marker, Hf.
Qed.

Lemma quoted_words_drop_corpus_witness :
  corpus_parts (format_docs (Demo.quoting_docs ++ Demo.ten_docs)%list) = []
  /\ needs_wikipedia "hello"
       (format_docs (Demo.quoting_docs ++ Demo.ten_docs)%list) = true.
Proof.
  apply (quoted_words_drop_corpus
           (Demo.quoting_docs ++ Demo.ten_docs)%list 0
           (Demo.titled "Search log"
              ("No documents found." ++ Demo.filler 500))
           "hello").
  - lia.
  - reflexivity.
  - left. vm_compute. reflexivity.
Defined.

(** ** More on the pipeline *)

Lemma wikipedia_parts_nil (wr : string) :
  wikipedia_parts wr = []
  <-> wr = "" \/ isin "Could not retrieve" wr = true.
Proof.
  unfold wikipedia_parts.
  destruct wr as [|c wr]; cbn [nonempty andb]; [split; auto|].
  set (b := isin "Could not retrieve" (String c wr)).
  destruct b; cbn [negb]; split; intros H.
  - right. reflexivity.
  - reflexivity.
  - discriminate.
  - destruct H; discriminate.
Qed.

Section PipelineMore.
Context {W E : Type}.
Variable retriever_invoke : string -> M W E (list Document).
Variable llm_invoke : string -> M W E Response.
Variable wikipedia : WikipediaLib W E.

(** X7. When nothing was retrieved, the fetch from Wikipedia is made
    whatever the question is: if it raises (the tool could not be built)
    so does the gathering, and if it returns, the context parts are those
    of its text alone, none for an empty text or a text with the words
    "Could not retrieve".  In particular a tool that is built and whose
    search raises leaves no part. *)
Theorem empty_retrieval_asks_wikipedia (q : string) (w : W) :
  gather_context wikipedia q (format_docs []) w =
  match _get_wikipedia_results wikipedia q w with
  | (Returned wr, w') => (Returned (wikipedia_parts wr), w')
  | (Raised e, w') => (Raised e, w')
  end
  /\ (forall wr, wikipedia_parts wr = []
                 <-> wr = "" \/ isin "Could not retrieve" wr = true)
  /\ (forall wiki w0 e w',
        new_wikipedia wikipedia w = (Returned wiki, w0) ->
        tool_run wikipedia wiki q w0 = (Raised e, w') ->
        gather_context wikipedia q (format_docs []) w = (Returned [], w')).
Proof.
  assert (Hg : gather_context wikipedia q (format_docs []) w =
               match _get_wikipedia_results wikipedia q w with
               | (Returned wr, w') => (Returned (wikipedia_parts wr), w')
               | (Raised e, w') => (Raised e, w')
               end).
  { destruct (gather_steps wikipedia q (format_docs []) w)
      as [[Hn _]|[_ Hg]].
    - rewrite needs_wikipedia_marker in Hn by reflexivity. discriminate.
    - exact Hg. }
  split; [exact Hg|]. split; [apply wikipedia_parts_nil|].
  intros wiki w0 e w' Hnew Hrun.
  rewrite Hg, fetch_steps, Hnew, Hrun. reflexivity.
Qed.


(** X9. [run] raises only what the retriever, the building of the
    Wikipedia tool or the model raised: a raised outcome comes from the
    first call of the retriever, from its second call, from the
    constructors of lines 36-38 when Wikipedia is needed, or from the
    call of the model; never from the search of line 40. *)
Theorem run_failure_origin (q : string) (w w' : W) (e : E) :
  run retriever_invoke llm_invoke wikipedia q w = (Raised e, w') ->
  retriever_invoke q w = (Raised e, w')
  \/ (exists docs1 w1,
        retriever_invoke q w = (Returned docs1, w1)
        /\ retriever_invoke q w1 = (Raised e, w'))
  \/ (exists docs1 w1 docs2 w2,
        retriever_invoke q w = (Returned docs1, w1)
        /\ retriever_invoke q w1 = (Returned docs2, w2)
        /\ needs_wikipedia q (format_docs docs2) = true
        /\ new_wikipedia wikipedia w2 = (Raised e, w'))
  \/ (exists docs1 w1 docs2 w2 parts w3,
        retriever_invoke q w = (Returned docs1, w1)
        /\ retriever_invoke q w1 = (Returned docs2, w2)
        /\ gather_context wikipedia q (format_docs docs2) w2
           = (Returned parts, w3)
        /\ llm_invoke (build_prompt (full_context parts) q) w3
           = (Raised e, w')).
Proof.
  intros H. rewrite run_steps in H.
  destruct (retriever_invoke q w) as [[docs1|e1] w1] eqn:H1.
  2: { injection H as -> ->. left. reflexivity. }
  destruct (retriever_invoke q w1) as [[docs2|e2] w2] eqn:H2.
  2: { injection H as -> ->. right. left. exists docs1, w1. auto. }
  destruct (gather_context wikipedia q (format_docs docs2) w2)
    as [[parts|e3] w3] eqn:H3.
  - destruct (llm_invoke (build_prompt (full_context parts) q) w3)
      as [[resp|e4] w4] eqn:H4; [discriminate|].
    injection H as -> ->. do 3 right.
    exists docs1, w1, docs2, w2, parts, w3. auto.
  - injection H as -> ->. right. right. left.
    exists docs1, w1, docs2, w2. split; [auto|]. split; [auto|].
    destruct (gather_steps wikipedia q (format_docs docs2) w2)
      as [[_ Hg]|[Hn Hg]]; [congruence|].
    split; [exact Hn|].
    rewrite Hg, fetch_steps in H3.
    destruct (new_wikipedia wikipedia w2) as [[wiki|e0] w0];
      [|injection H3 as -> ->; reflexivity].
    destruct (tool_run wikipedia wiki q w0) as [[s|e5] w5]; discriminate.
Qed.

(** X12. If the retriever never raises on the question, the Wikipedia
    tool can always be built and the model never raises, [run] returns,
    whatever the search of the tool does. *)
Theorem run_returns_whatever_wikipedia_does (q : string) (w : W) :
  (forall w0, exists docs w1, retriever_invoke q w0 = (Returned docs, w1)) ->
  (forall w0, exists wiki w1,
      new_wikipedia wikipedia w0 = (Returned wiki, w1)) ->
  (forall p w0, exists resp w1, llm_invoke p w0 = (Returned resp, w1)) ->
  exists r w', run retriever_invoke llm_invoke wikipedia q w
               = (Returned r, w').
Proof.
  intros Hr Hn Hl.
  destruct (Hr w) as (docs1 & w1 & H1).
  destruct (Hr w1) as (docs2 & w2 & H2).
  destruct (gather_returns wikipedia q (format_docs docs2) w2)
    as (parts & w3 & H3); [right; apply Hn|].
  destruct (Hl (build_prompt (full_context parts) q) w3) as (resp & w4 & H4).
  exists (make_result q docs1 (answer_of resp)), w4.
  eapply run_returns; eassumption.
Qed.

End PipelineMore.

(** X10. When the text of the second retrieval needs no Wikipedia, the
    library has no part in [run]: any two of them give the same outcome
    and the same world. *)
Theorem run_ignores_unneeded_wikipedia {W E : Type}
    (retriever_invoke : string -> M W E (list Document))
    (llm_invoke : string -> M W E Response)
    (wikipedia wikipedia' : WikipediaLib W E)
    (q : string) (w w1 w2 : W) (docs1 docs2 : list Document) :
  retriever_invoke q w = (Returned docs1, w1) ->
  retriever_invoke q w1 = (Returned docs2, w2) ->
  needs_wikipedia q (format_docs docs2) = false ->
  run retriever_invoke llm_invoke wikipedia q w
  = run retriever_invoke llm_invoke wikipedia' q w.
Proof.
  intros H1 H2 Hn. rewrite !run_steps, H1, H2.
  unfold gather_context. rewrite Hn. reflexivity.
Qed.

(** ** These properties on the sample collaborators *)


(** The package is not installed and Wikipedia is needed: [run] raises
    what the constructor raised. *)
Lemma run_failure_origin_witness :
  Demo.retriever Demo.short_docs "hello" []
  = (Raised "ImportError",
     ["retriever.invoke"; "retriever.invoke"; "WikipediaAPIWrapper"])
  \/ (exists docs1 w1,
        Demo.retriever Demo.short_docs "hello" [] = (Returned docs1, w1)
        /\ Demo.retriever Demo.short_docs "hello" w1
           = (Raised "ImportError",
              ["retriever.invoke"; "retriever.invoke";
               "WikipediaAPIWrapper"]))
  \/ (exists docs1 w1 docs2 w2,
        Demo.retriever Demo.short_docs "hello" [] = (Returned docs1, w1)
        /\ Demo.retriever Demo.short_docs "hello" w1 = (Returned docs2, w2)
        /\ needs_wikipedia "hello" (format_docs docs2) = true
        /\ new_wikipedia Demo.missing_wikipedia w2
           = (Raised "ImportError",
              ["retriever.invoke"; "retriever.invoke";
               "WikipediaAPIWrapper"]))
  \/ (exists docs1 w1 docs2 w2 parts w3,
        Demo.retriever Demo.short_docs "hello" [] = (Returned docs1, w1)
        /\ Demo.retriever Demo.short_docs "hello" w1 = (Returned docs2, w2)
        /\ gather_context Demo.missing_wikipedia "hello" (format_docs docs2) w2
           = (Returned parts, w3)
        /\ Demo.llm (Some (PStr "fine"))
             (build_prompt (full_context parts) "hello") w3
           = (Raised "ImportError",
              ["retriever.invoke"; "retriever.invoke";
               "WikipediaAPIWrapper"])).
Proof.
  apply (run_failure_origin (Demo.retriever Demo.short_docs)
           (Demo.llm (Some (PStr "fine"))) Demo.missing_wikipedia "hello" []).
  vm_compute. reflexivity.
Defined.

Lemma run_returns_whatever_wikipedia_does_witness :
  exists r w',
    run (Demo.retriever Demo.ten_docs) (Demo.llm (Some (PStr "An answer.")))
        Demo.failing_wikipedia "What is this?" []
    = (Returned r, w').
Proof.
  apply run_returns_whatever_wikipedia_does.
  - intros w0. eexists. eexists. reflexivity.
  - intros w0. eexists. eexists. reflexivity.
  - intros p w0. eexists. eexists. reflexivity.
Defined.

Lemma run_ignores_unneeded_wikipedia_witness :
  run (Demo.retriever Demo.long_docs) (Demo.llm (Some (PStr "An answer.")))
      Demo.missing_wikipedia "hello" []
  = run (Demo.retriever Demo.long_docs) (Demo.llm (Some (PStr "An answer.")))
        (Demo.wikipedia "Paris is the capital of France.") "hello" [].
Proof.
  apply (run_ignores_unneeded_wikipedia _ _ _ _ "hello" []
           ["retriever.invoke"] ["retriever.invoke"; "retriever.invoke"]
           Demo.long_docs Demo.long_docs).
  - reflexivity.
  - reflexivity.
  - vm_compute. reflexivity.
Defined.
